(** * counting-nodes/math.py: doubly exponential products for van Emde Boas trees

    A shallow embedding of the Python 2 script
    [advanced-data-structures/van-emde-boas/counting-nodes/math.py]
    and the properties of its three functions [prod], [prod2] and [test]. *)

From Stdlib Require Import ZArith List Lia Bool String Ascii DecimalString.
Import ListNotations.

Local Open Scope Z_scope.

(** ** The Python values the script manipulates *)

Module Py.

(** A Python [float] is kept as the term of float operations that
    produce it: [FofInt n] is the conversion [float(n)], which raises
    [OverflowError] when [n] is beyond the range of a double, [Fpow x y]
    the C library call [pow(x, y)] and [Fmul x y] the double product.
    The term says which operations run; it fixes neither their rounding
    nor whether the conversion succeeds. *)
Inductive pyfloat : Type :=
| FofInt (n : Z)
| Fpow (x y : pyfloat)
| Fmul (x y : pyfloat).

(** [int] and [long] are one unbounded integer type. *)
Inductive pyval : Type :=
| PyInt (n : Z)
| PyFloat (x : pyfloat).

Definition to_float (v : pyval) : pyfloat :=
  match v with
  | PyInt n => FofInt n
  | PyFloat x => x
  end.

Definition as_int (v : pyval) : option Z :=
  match v with
  | PyInt n => Some n
  | PyFloat _ => None
  end.

(** The builtin [pow(x, y)] with two arguments.  On integers with a
    non-negative exponent it is exact; with a negative exponent the
    integer power hands over to the float power of the two converted
    arguments, as does any call with a float argument. *)
Definition pow (x y : pyval) : pyval :=
  match x, y with
  | PyInt b, PyInt e =>
      if 0 <=? e then PyInt (b ^ e) else PyFloat (Fpow (FofInt b) (FofInt e))
  | _, _ => PyFloat (Fpow (to_float x) (to_float y))
  end.

(** The operator [*] (and so [*=] on immutable numbers). *)
Definition mul (x y : pyval) : pyval :=
  match x, y with
  | PyInt a, PyInt b => PyInt (a * b)
  | _, _ => PyFloat (Fmul (to_float x) (to_float y))
  end.

(** [range(a, b)] on integers: the list a, a+1, ..., b-1. *)
Definition range (a b : Z) : list Z :=
  map (fun n => a + Z.of_nat n) (seq 0 (Z.to_nat (b - a))).

End Py.

Import Py.

(** ** [prod]: the while loop *)

(** The local variables of [prod]; [iters] is a ghost counter of the
    executed loop bodies. *)
Record frame : Type := Frame { result : pyval; k : Z; iters : nat }.

(** [result = 1; k = 1] *)
Definition prod_init : frame := Frame (PyInt 1) 1 0.

(** [result *= pow(2, pow(2, h - k)); k += 1] *)
Definition prod_body (h : Z) (st : frame) : frame :=
  Frame (mul (result st) (pow (PyInt 2) (pow (PyInt 2) (PyInt (h - k st)))))
        (k st + 1)
        (S (iters st)).

(** [while k <= i: body], unrolled at most [fuel] times. *)
Fixpoint prod_loop (fuel : nat) (i h : Z) (st : frame) : frame :=
  match fuel with
  | O => st
  | S fuel' =>
      if k st <=? i then prod_loop fuel' i h (prod_body h st) else st
  end.

(** The loop runs [i] times when [i] is positive, so [Z.to_nat i]
    unrollings reach the exit test (lemma [prod_loop_exits]). *)
Definition prod_run (i h : Z) : frame :=
  prod_loop (Z.to_nat i) i h prod_init.

Definition prod (i h : Z) : pyval := result (prod_run i h).

(** ** [prod2] *)

Definition prod2 (i : Z) : pyval :=
  pow (PyInt 2) (pow (PyInt 2) (PyInt (2 - i))).

(** ** Console output: the [%] operator and the [print] statement *)

Inductive exn : Type :=
| TypeError
| ValueError
| OverflowError.

Inductive outcome (A : Type) : Type :=
| Returned (a : A)
| Raised (e : exn).

Arguments Returned {A} a.
Arguments Raised {A} e.

(** Standard output is the list of the lines printed so far; a
    computation threads it and either returns or raises. *)
Definition stdout : Type := list string.

Definition io (A : Type) : Type := stdout -> outcome A * stdout.

Definition ret {A : Type} (a : A) : io A := fun out => (Returned a, out).

Definition raise {A : Type} (e : exn) : io A := fun out => (Raised e, out).

Definition bind {A B : Type} (m : io A) (f : A -> io B) : io B :=
  fun out =>
    match m out with
    | (Returned a, out') => f a out'
    | (Raised e, out') => (Raised e, out')
    end.

Notation "m ;;; f" := (bind m (fun _ => f))
  (at level 61, right associativity).

(** [print s]: the string and a newline, that is one more line. *)
Definition print (s : string) : io unit :=
  fun out => (Returned tt, out ++ [s]).

(** [for x in xs: body] *)
Fixpoint for_each (xs : list Z) (body : Z -> io unit) : io unit :=
  match xs with
  | [] => ret tt
  | x :: xs' => body x ;;; for_each xs' body
  end.

(** Decimal digits of an integer, with a leading minus sign when
    negative: what [%d] writes for an [int]. *)
Definition str_int (n : Z) : string := NilZero.string_of_int (Z.to_int n).

Section Console.

(** [int(x)] for a float [x]: the double the float operations of [x]
    compute, truncated toward zero.  It depends on the C library and is
    left open. *)
Variable float_trunc : pyfloat -> Z.

(** The conversion [%d] of one argument: a float is converted with
    [int] first. *)
Definition format_d (v : pyval) : string :=
  match v with
  | PyInt n => str_int n
  | PyFloat x => str_int (float_trunc x)
  end.

(** [fmt % args] for format strings whose only conversion is [%d].
    Too few or too many arguments raise [TypeError], a [%] at the end
    raises [ValueError]; the other conversions of Python are not
    modelled and are answered with [ValueError] as well. *)
Fixpoint format (fmt : string) (args : list pyval) : outcome string :=
  match fmt with
  | EmptyString =>
      match args with
      | [] => Returned EmptyString
      | _ :: _ => Raised TypeError
      end
  | String c rest =>
      if Ascii.eqb c "%" then
        match rest with
        | EmptyString => Raised ValueError
        | String d rest' =>
            if Ascii.eqb d "d" then
              match args with
              | [] => Raised TypeError
              | v :: args' =>
                  match format rest' args' with
                  | Returned s => Returned (format_d v ++ s)%string
                  | Raised e => Raised e
                  end
              end
            else Raised ValueError
        end
      else
        match format rest args with
        | Returned s => Returned (String c s)
        | Raised e => Raised e
        end
  end.

(** [print fmt % args] *)
Definition print_format (fmt : string) (args : list pyval) : io unit :=
  match format fmt args with
  | Returned s => print s
  | Raised e => raise e
  end.

(** ** [test] and the call at the end of the script *)

Definition test (h : Z) : io unit :=
  for_each (range 1 (h + 1)) (fun i =>
    print_format "prod i = %d: %d" [PyInt i; prod i h] ;;;
    print_format "prod2 i = %d: %d" [PyInt i; prod2 i]).

(** [test(2)] *)
Definition main : io unit := test 2.

End Console.

(** ** The formulas the functions are compared with *)

(** The factor of iteration [k]: 2^(2^(h-k)). *)
Definition factor (h k : Z) : Z := 2 ^ (2 ^ (h - k)).

(** The product of the factors for k = a, ..., b, recomputed over the
    list of indices. *)
Definition big_prod (a b h : Z) : Z :=
  fold_right Z.mul 1 (map (factor h) (range a (b + 1))).

(** Π_{k=1}^{i} 2^(2^(h-k)) *)
Definition prod_formula (i h : Z) : Z := big_prod 1 i h.

(** 2^(2^h - 2^(h-i)) *)
Definition prod_closed (i h : Z) : Z := 2 ^ (2 ^ h - 2 ^ (h - i)).

Section Demo.

Variable float_trunc : pyfloat -> Z.

(** The line [<label> i = <i>: <v>], both numbers written by [%d]. *)
Definition demo_line (label : string) (i : Z) (v : pyval) : string :=
  (label ++ " i = " ++ str_int i ++ ": " ++ format_d float_trunc v)%string.

(** The pair of lines for one [i], and the pairs for i = 1, ..., h. *)
Definition demo_pair (h i : Z) : list string :=
  [demo_line "prod" i (prod i h); demo_line "prod2" i (prod2 i)].

Definition demo_lines (h : Z) : list string :=
  flat_map (demo_pair h) (map Z.of_nat (seq 1 (Z.to_nat h))).

End Demo.

(** ** The float operations with their conversion errors *)

(** [Py.pow] and [Py.mul] say which operations run.  The definitions
    below add when they fail: an [int] operand of a float operation is
    converted to a double first, and the conversion raises
    [OverflowError] when the integer is too large.  The script catches
    nothing, so the first failure ends the call. *)

Definition obind {A B : Type} (m : outcome A) (f : A -> outcome B) : outcome B :=
  match m with
  | Returned a => f a
  | Raised e => Raised e
  end.

Module PyChecked.

(** An integer converts to a double, rounding to nearest even, when its
    absolute value is below 2^1024 - 2^970, half a unit in the last
    place above the largest double. *)
Definition double_limit : Z := 2 ^ 1024 - 2 ^ 970.

Definition fits_double (n : Z) : bool := Z.abs n <? double_limit.

(** The operand of a float operation as a double. *)
Definition to_double (v : pyval) : outcome pyfloat :=
  match v with
  | PyInt n => if fits_double n then Returned (FofInt n) else Raised OverflowError
  | PyFloat x => Returned x
  end.

Definition float_pow (x y : pyval) : outcome pyval :=
  obind (to_double x) (fun a =>
  obind (to_double y) (fun b =>
  Returned (PyFloat (Fpow a b)))).

Definition float_mul (x y : pyval) : outcome pyval :=
  obind (to_double x) (fun a =>
  obind (to_double y) (fun b =>
  Returned (PyFloat (Fmul a b)))).

(** [pow(x, y)].  The errors of the float power itself (a zero base
    with a negative exponent, a negative base with a fractional
    exponent, a result beyond the doubles) are left out: the script
    raises 2 to an integer or to a double between 0 and 1 only. *)
Definition pow (x y : pyval) : outcome pyval :=
  match x, y with
  | PyInt b, PyInt e =>
      if 0 <=? e then Returned (PyInt (b ^ e)) else float_pow x y
  | _, _ => float_pow x y
  end.

(** [x * y]; a product of doubles never raises. *)
Definition mul (x y : pyval) : outcome pyval :=
  match x, y with
  | PyInt a, PyInt b => Returned (PyInt (a * b))
  | _, _ => float_mul x y
  end.

End PyChecked.

(** [result *= pow(2, pow(2, h - k)); k += 1] *)
Definition prod_body_checked (h : Z) (st : frame) : outcome frame :=
  obind (PyChecked.pow (PyInt 2) (PyInt (h - k st))) (fun e =>
  obind (PyChecked.pow (PyInt 2) e) (fun f =>
  obind (PyChecked.mul (result st) f) (fun r =>
  Returned (Frame r (k st + 1) (S (iters st)))))).

(** [while k <= i: body]; an error in the body leaves the loop. *)
Fixpoint prod_loop_checked (fuel : nat) (i h : Z) (st : frame) : outcome frame :=
  match fuel with
  | O => Returned st
  | S fuel' =>
      if k st <=? i then
        match prod_body_checked h st with
        | Returned st' => prod_loop_checked fuel' i h st'
        | Raised e => Raised e
        end
      else Returned st
  end.

Definition prod_run_checked (i h : Z) : outcome frame :=
  prod_loop_checked (Z.to_nat i) i h prod_init.

(** [prod(i, h)]: the value returned or the error raised. *)
Definition prod_checked (i h : Z) : outcome pyval :=
  obind (prod_run_checked i h) (fun st => Returned (result st)).

(** [prod2(i)]: the value returned or the error raised. *)
Definition prod2_checked (i : Z) : outcome pyval :=
  obind (PyChecked.pow (PyInt 2) (PyInt (2 - i))) (fun e =>
  PyChecked.pow (PyInt 2) e).

(** * Properties *)

(** ** Index ranges and products over them *)

Lemma range_nil (a b : Z) : b <= a -> range a b = [].
Proof.
  intros Hba. unfold range.
  replace (Z.to_nat (b - a)) with 0%nat by lia. reflexivity.
Qed.

Lemma range_cons (a b : Z) : a < b -> range a b = a :: range (a + 1) b.
Proof.
  intros Hab. unfold range.
  replace (Z.to_nat (b - a)) with (S (Z.to_nat (b - (a + 1)))) by lia.
  cbn [seq map]. f_equal; [lia|].
  rewrite <- seq_shift, map_map.
  apply map_ext. intros n. lia.
Qed.

Lemma range_from_one (h : Z) :
  range 1 (h + 1) = map Z.of_nat (seq 1 (Z.to_nat h)).
Proof.
  unfold range. replace (h + 1 - 1) with h by lia.
  rewrite <- seq_shift, map_map.
  apply map_ext. intros n. lia.
Qed.

Lemma big_prod_empty (a b h : Z) : b < a -> big_prod a b h = 1.
Proof.
  intros Hba. unfold big_prod. rewrite range_nil by lia. reflexivity.
Qed.

Lemma big_prod_first (a b h : Z) :
  a <= b -> big_prod a b h = factor h a * big_prod (a + 1) b h.
Proof.
  intros Hab. unfold big_prod. rewrite range_cons by lia. reflexivity.
Qed.

Lemma factor_ge_2 (h k : Z) : k <= h -> 2 <= factor h k.
Proof.
  intros Hk. unfold factor.
  assert (0 < 2 ^ (h - k)) by (apply Z.pow_pos_nonneg; lia).
  change 2 with (2 ^ 1) at 1.
  apply Z.pow_le_mono_r; lia.
Qed.

Lemma factor_pos (h k : Z) : 0 < factor h k.
Proof.
  unfold factor. apply Z.pow_pos_nonneg; [lia|]. apply Z.pow_nonneg. lia.
Qed.

Lemma big_prod_pos (a b h : Z) : 0 < big_prod a b h.
Proof.
  unfold big_prod. induction (range a (b + 1)) as [|x xs IH]; cbn [map fold_right].
  - lia.
  - pose proof (factor_pos h x). lia.
Qed.

(** The product telescopes in the exponent. *)
Lemma big_prod_closed (n : nat) :
  forall a b h, Z.to_nat (b + 1 - a) = n -> 1 <= a -> a <= b + 1 -> b <= h ->
  big_prod a b h = 2 ^ (2 ^ (h - a + 1) - 2 ^ (h - b)).
Proof.
  induction n as [|n IH]; intros a b h Hn Ha Hab Hbh.
  - rewrite big_prod_empty by lia.
    replace (h - a + 1) with (h - b) by lia.
    rewrite Z.sub_diag. reflexivity.
  - rewrite big_prod_first by lia.
    rewrite (IH (a + 1) b h) by lia.
    replace (h - (a + 1) + 1) with (h - a) by lia.
    unfold factor.
    assert (Hmono : 2 ^ (h - b) <= 2 ^ (h - a)) by (apply Z.pow_le_mono_r; lia).
    assert (Hpos : 0 < 2 ^ (h - b)) by (apply Z.pow_pos_nonneg; lia).
    rewrite <- Z.pow_add_r by lia.
    f_equal.
    replace (h - a + 1) with (Z.succ (h - a)) by lia.
    rewrite Z.pow_succ_r by lia. lia.
Qed.

(** ** The power calls of the loop body *)

Lemma pow_factor (h k : Z) :
  k <= h -> pow (PyInt 2) (pow (PyInt 2) (PyInt (h - k))) = PyInt (factor h k).
Proof.
  intros Hk. unfold pow at 2.
  destruct (Z.leb_spec 0 (h - k)) as [_|Hneg]; [|lia].
  unfold pow.
  destruct (Z.leb_spec 0 (2 ^ (h - k))) as [_|Hneg]; [reflexivity|].
  pose proof (Z.pow_nonneg 2 (h - k)). lia.
Qed.

Lemma pow_negative (b e : Z) :
  e < 0 -> pow (PyInt b) (PyInt e) = PyFloat (Fpow (FofInt b) (FofInt e)).
Proof.
  intros He. unfold pow.
  destruct (Z.leb_spec 0 e) as [Hge|_]; [lia|reflexivity].
Qed.

(** ** The loop of [prod] *)

(** The unrolling stops at the loop test, not at the fuel. *)
Lemma prod_loop_exits (fuel : nat) :
  forall i h st, (Z.to_nat (i + 1 - k st) <= fuel)%nat ->
  i < k (prod_loop fuel i h st).
Proof.
  induction fuel as [|fuel IH]; intros i h st Hfuel; cbn [prod_loop].
  - lia.
  - destruct (Z.leb_spec (k st) i) as [Hle|Hgt]; [|lia].
    apply IH. cbn [prod_body k]. lia.
Qed.

(** More fuel than needed changes nothing. *)
Lemma prod_loop_fuel (fuel : nat) :
  forall fuel' i h st,
  (Z.to_nat (i + 1 - k st) <= fuel)%nat -> (fuel <= fuel')%nat ->
  prod_loop fuel' i h st = prod_loop fuel i h st.
Proof.
  induction fuel as [|fuel IH]; intros fuel' i h st Hfuel Hle.
  - destruct fuel' as [|fuel']; [reflexivity|]. cbn [prod_loop].
    destruct (Z.leb_spec (k st) i) as [Hk|Hk]; [lia|reflexivity].
  - destruct fuel' as [|fuel']; [lia|]. cbn [prod_loop].
    destruct (Z.leb_spec (k st) i) as [Hk|Hk]; [|reflexivity].
    apply IH; [cbn [prod_body k]|]; lia.
Qed.

Lemma prod_run_exits (i h : Z) : i < k (prod_run i h).
Proof.
  unfold prod_run. apply prod_loop_exits. cbn [prod_init k]. lia.
Qed.

(** Loop invariant on the integer domain: from [result = r] at index
    [k0], the loop multiplies in the factors k0, ..., i. *)
Lemma prod_loop_int (fuel : nat) :
  forall i h r k0 n, i <= h -> (Z.to_nat (i + 1 - k0) <= fuel)%nat ->
  prod_loop fuel i h (Frame (PyInt r) k0 n) =
  Frame (PyInt (r * big_prod k0 i h)) (Z.max k0 (i + 1))
        (n + Z.to_nat (i + 1 - k0)).
Proof.
  induction fuel as [|fuel IH]; intros i h r k0 n Hih Hfuel; cbn [prod_loop k].
  - rewrite big_prod_empty by lia. f_equal; [f_equal|..]; lia.
  - destruct (Z.leb_spec k0 i) as [Hle|Hgt].
    + unfold prod_body. cbn [result k iters].
      rewrite pow_factor by lia. cbn [mul].
      rewrite IH by lia.
      rewrite (big_prod_first k0 i h) by lia.
      f_equal; [f_equal|..]; lia.
    + rewrite big_prod_empty by lia. f_equal; [f_equal|..]; lia.
Qed.

Lemma prod_run_int (i h : Z) :
  i <= h ->
  prod_run i h = Frame (PyInt (big_prod 1 i h)) (Z.max 1 (i + 1)) (Z.to_nat i).
Proof.
  intros Hih. unfold prod_run, prod_init.
  rewrite prod_loop_int by lia.
  f_equal; [f_equal|..]; lia.
Qed.

Lemma prod_int (i h : Z) : i <= h -> prod i h = PyInt (big_prod 1 i h).
Proof.
  intros Hih. unfold prod. rewrite prod_run_int by lia. reflexivity.
Qed.

Lemma prod_closed_int (i h : Z) :
  0 <= i <= h -> prod i h = PyInt (prod_closed i h).
Proof.
  intros [Hi Hih]. rewrite prod_int by lia. f_equal.
  rewrite (big_prod_closed (Z.to_nat i) 1 i h) by lia.
  replace (h - 1 + 1) with h by lia. reflexivity.
Qed.

(** ** [prod] on its domain *)

(** C1: for all integers i, h with 1 <= i <= h, [prod i h] returns the
    product for k from 1 to i of 2^(2^(h-k)), an exact non-negative
    integer. *)
Theorem prod_is_product (i h : Z) :
  1 <= i <= h ->
  prod i h = PyInt (prod_formula i h) /\ 0 <= prod_formula i h.
Proof.
  intros [Hi Hih]. split.
  - apply prod_int. lia.
  - unfold prod_formula. pose proof (big_prod_pos 1 i h). lia.
Qed.

Lemma prod_is_product_witness :
  1 <= 2 <= 3 /\ prod 2 3 = PyInt (prod_formula 2 3) /\ 0 <= prod_formula 2 3.
Proof.
  split; [lia | apply (prod_is_product 2 3); lia].
Defined.

(** C9: for all integers i, h with 0 <= i <= h, the loop of [prod]
    computes exactly 2^(2^h - 2^(h-i)), whatever fuel its unrolling is
    given beyond the i iterations it needs. *)
Theorem prod_closed_form (i h : Z) :
  0 <= i <= h ->
  prod i h = PyInt (prod_closed i h) /\
  forall fuel, (Z.to_nat i <= fuel)%nat ->
    result (prod_loop fuel i h prod_init) = PyInt (prod_closed i h).
Proof.
  intros Hih. split.
  - apply prod_closed_int. exact Hih.
  - intros fuel Hfuel.
    rewrite (prod_loop_fuel (Z.to_nat i) fuel) by (cbn [prod_init k]; lia).
    apply (prod_closed_int i h Hih).
Qed.

Lemma prod_closed_form_witness :
  0 <= 2 <= 3 /\ prod 2 3 = PyInt (prod_closed 2 3).
Proof.
  split; [lia | apply (prod_closed_form 2 3); lia].
Defined.

(** C6: for every integer h and every integer i < 1, the loop of
    [prod i h] runs zero times and [prod i h] returns 1. *)
Theorem prod_below_one (i h : Z) :
  i < 1 ->
  prod i h = PyInt 1 /\
  iters (prod_run i h) = 0%nat /\
  forall fuel, prod_loop fuel i h prod_init = prod_init.
Proof.
  intros Hi.
  assert (Hloop : forall fuel, prod_loop fuel i h prod_init = prod_init).
  { intros [|fuel]; cbn [prod_loop prod_init k]; [reflexivity|].
    destruct (Z.leb_spec 1 i) as [Hle|_]; [lia|reflexivity]. }
  unfold prod, prod_run. rewrite Hloop. auto.
Qed.

Lemma prod_below_one_witness :
  0 < 1 /\
  prod 0 5 = PyInt 1 /\
  iters (prod_run 0 5) = 0%nat /\
  forall fuel, prod_loop fuel 0 5 prod_init = prod_init.
Proof.
  split; [lia | apply (prod_below_one 0 5); lia].
Defined.

(** C4, as the script behaves: for every integer h >= 1, [prod h h]
    returns 2^(2^h - 1); that is 2 exactly when h = 1.  The factor of
    the last iteration alone, k = h, is 2^(2^0) = 2. *)
Theorem prod_diagonal (h : Z) :
  1 <= h ->
  prod h h = PyInt (2 ^ (2 ^ h - 1)) /\
  (prod h h = PyInt 2 <-> h = 1) /\
  factor h h = 2.
Proof.
  intros Hh.
  assert (Hval : prod h h = PyInt (2 ^ (2 ^ h - 1))).
  { rewrite prod_closed_int by lia. unfold prod_closed.
    rewrite Z.sub_diag. reflexivity. }
  split; [exact Hval|]. split.
  - rewrite Hval. split.
    + intros Heq. injection Heq as Heq.
      destruct (Z.eq_dec h 1) as [|Hne]; [assumption|exfalso].
      assert (H4 : 2 ^ 2 <= 2 ^ h) by (apply Z.pow_le_mono_r; lia).
      assert (H8 : 2 ^ 3 <= 2 ^ (2 ^ h - 1)).
      { apply Z.pow_le_mono_r; [lia|]. change (2 ^ 2) with 4 in H4. lia. }
      change (2 ^ 3) with 8 in H8. lia.
    + intros ->. reflexivity.
  - unfold factor. rewrite Z.sub_diag. reflexivity.
Qed.

Lemma prod_diagonal_witness :
  1 <= 3 /\
  prod 3 3 = PyInt (2 ^ (2 ^ 3 - 1)) /\
  (prod 3 3 = PyInt 2 <-> 3 = 1) /\
  factor 3 3 = 2.
Proof.
  split; [lia | apply (prod_diagonal 3); lia].
Defined.

(** C4 fails as stated: at h = 2, [prod 2 2] is 8, not 2. *)
Lemma prod_diagonal_not_2 : 1 <= 2 /\ prod 2 2 = PyInt 8 /\ prod 2 2 <> PyInt 2.
Proof.
  split; [lia|]. split; [reflexivity|]. discriminate.
Qed.

(** C10: for every integer h >= 1 and all integers i, i' with
    0 <= i < i' <= h, [prod i h < prod i' h]; every iteration with
    k <= h multiplies the accumulator by a factor 2^(2^(h-k)) >= 2. *)
Theorem prod_strictly_increasing (h i i' : Z) :
  1 <= h -> 0 <= i < i' /\ i' <= h ->
  (exists a b, as_int (prod i h) = Some a /\ as_int (prod i' h) = Some b /\ a < b) /\
  (forall k0 r n, 1 <= k0 <= h ->
     prod_body h (Frame (PyInt r) k0 n) =
       Frame (PyInt (r * factor h k0)) (k0 + 1) (S n) /\
     2 <= factor h k0).
Proof.
  intros Hh [[Hi Hlt] Hi']. split.
  - exists (prod_closed i h), (prod_closed i' h).
    rewrite !prod_closed_int by lia. cbn [as_int].
    split; [reflexivity|]. split; [reflexivity|]. unfold prod_closed.
    assert (Hexp : 2 ^ (h - i') < 2 ^ (h - i)) by (apply Z.pow_lt_mono_r; lia).
    assert (Hle : 2 ^ (h - i') <= 2 ^ h) by (apply Z.pow_le_mono_r; lia).
    apply Z.pow_lt_mono_r; lia.
  - intros k0 r n Hk. split.
    + unfold prod_body. cbn [result k iters].
      rewrite pow_factor by lia. reflexivity.
    + apply factor_ge_2. lia.
Qed.

Lemma prod_strictly_increasing_witness :
  1 <= 3 /\ (0 <= 1 < 2 /\ 2 <= 3) /\
  (exists a b, as_int (prod 1 3) = Some a /\ as_int (prod 2 3) = Some b /\ a < b).
Proof.
  split; [lia|]. split; [lia|].
  apply (prod_strictly_increasing 3 1 2); lia.
Defined.

(** ** [prod2] *)

Lemma prod2_int (i : Z) : i <= 2 -> prod2 i = PyInt (2 ^ (2 ^ (2 - i))).
Proof.
  intros Hi. unfold prod2. rewrite (pow_factor 2 i) by lia. reflexivity.
Qed.

Lemma prod2_float (i : Z) :
  2 < i -> prod2 i = PyFloat (Fpow (FofInt 2) (Fpow (FofInt 2) (FofInt (2 - i)))).
Proof.
  intros Hi. unfold prod2. rewrite pow_negative by lia. reflexivity.
Qed.

(** No integer is a 2^m-th root of 2 when m >= 1. *)
Lemma no_integer_root_of_2 (m z : Z) : 1 <= m -> z ^ (2 ^ m) <> 2.
Proof.
  intros Hm.
  replace m with (Z.succ (m - 1)) by lia.
  rewrite Z.pow_succ_r by lia.
  assert (Hn : 1 <= 2 ^ (m - 1)).
  { assert (0 < 2 ^ (m - 1)) by (apply Z.pow_pos_nonneg; lia). lia. }
  rewrite Z.pow_mul_r by lia. rewrite Z.pow_2_r.
  assert (Hsq : z * z = 0 \/ z * z = 1 \/ 4 <= z * z).
  { assert (Hz : z <= -2 \/ z = -1 \/ z = 0 \/ z = 1 \/ 2 <= z) by lia.
    destruct Hz as [Hz | [-> | [-> | [-> | Hz]]]]; [right; right; nia | auto ..].
    right; right; nia. }
  destruct Hsq as [-> | [-> | Hbig]].
  - rewrite Z.pow_0_l by lia. discriminate.
  - rewrite Z.pow_1_l by lia. discriminate.
  - assert (Hle : (z * z) ^ 1 <= (z * z) ^ (2 ^ (m - 1)))
      by (apply Z.pow_le_mono_r; lia).
    rewrite Z.pow_1_r in Hle. lia.
Qed.

(** C5: [prod2 1] is 2^(2^1) = 4 and [prod2 2] is 2^(2^0) = 2. *)
Theorem prod2_at_1_and_2 :
  prod2 1 = PyInt (2 ^ (2 ^ 1)) /\ prod2 1 = PyInt 4 /\
  prod2 2 = PyInt (2 ^ (2 ^ 0)) /\ prod2 2 = PyInt 2.
Proof.
  repeat split; reflexivity.
Qed.

(** C3, as the script behaves: at h = 2 [prod] and [prod2] agree at
    i = 1, where both are 4; at i = 2 [prod 2 2] is 8 and [prod2 2] is
    2.  For i in {1, 2}, [prod2 i] is the factor that iteration i
    multiplies into [prod i 2]. *)
Theorem prod_prod2_at_height_2 :
  prod 1 2 = prod2 1 /\ prod 1 2 = PyInt 4 /\
  prod 2 2 = PyInt 8 /\ prod2 2 = PyInt 2 /\
  prod 1 2 = mul (prod 0 2) (prod2 1) /\
  prod 2 2 = mul (prod 1 2) (prod2 2).
Proof.
  repeat split; reflexivity.
Qed.

(** C3 fails as stated: at i = 2 the two functions differ. *)
Lemma prod_prod2_differ_at_2 :
  (2 = 1 \/ 2 = 2) /\ prod 2 2 <> prod2 2.
Proof.
  split; [right; reflexivity|]. discriminate.
Qed.

(** ** Console output *)

Lemma append_empty_r (s : string) : (s ++ "")%string = s.
Proof.
  induction s as [|c s IH]; cbn [append]; [reflexivity|].
  rewrite IH. reflexivity.
Qed.

Section ConsoleFacts.

Variable float_trunc : pyfloat -> Z.

Lemma format_prod_line (i : Z) (v : pyval) :
  format float_trunc "prod i = %d: %d" [PyInt i; v] =
  Returned (demo_line float_trunc "prod" i v).
Proof.
  unfold demo_line. cbn [format Ascii.eqb Bool.eqb format_d append].
  rewrite append_empty_r. reflexivity.
Qed.

Lemma format_prod2_line (i : Z) (v : pyval) :
  format float_trunc "prod2 i = %d: %d" [PyInt i; v] =
  Returned (demo_line float_trunc "prod2" i v).
Proof.
  unfold demo_line. cbn [format Ascii.eqb Bool.eqb format_d append].
  rewrite append_empty_r. reflexivity.
Qed.

(** One turn of the [for] loop of [test] appends its pair of lines. *)
Lemma test_body_prints (h i : Z) (out : stdout) :
  (print_format float_trunc "prod i = %d: %d" [PyInt i; prod i h] ;;;
   print_format float_trunc "prod2 i = %d: %d" [PyInt i; prod2 i]) out =
  (Returned tt, out ++ demo_pair float_trunc h i).
Proof.
  unfold print_format. rewrite format_prod_line, format_prod2_line.
  unfold bind, print, demo_pair. rewrite <- app_assoc. reflexivity.
Qed.

Lemma for_each_prints (h : Z) (xs : list Z) :
  forall out,
  for_each xs (fun i =>
    print_format float_trunc "prod i = %d: %d" [PyInt i; prod i h] ;;;
    print_format float_trunc "prod2 i = %d: %d" [PyInt i; prod2 i]) out =
  (Returned tt, out ++ flat_map (demo_pair float_trunc h) xs).
Proof.
  induction xs as [|x xs IH]; intros out; cbn [for_each flat_map].
  - unfold ret. rewrite app_nil_r. reflexivity.
  - unfold bind at 1. rewrite test_body_prints, IH, <- app_assoc. reflexivity.
Qed.

Lemma test_prints_lines (h : Z) (out : stdout) :
  test float_trunc h out = (Returned tt, out ++ demo_lines float_trunc h).
Proof.
  unfold test, demo_lines. rewrite range_from_one. apply for_each_prints.
Qed.



End ConsoleFacts.



(** C2, as the script behaves: the call [test(2)] of the script prints
    exactly the four lines [prod i = 1: 4], [prod2 i = 1: 4],
    [prod i = 2: 8], [prod2 i = 2: 2], in that order. *)
Theorem main_prints (float_trunc : pyfloat -> Z) :
  main float_trunc [] =
  (Returned tt,
   ["prod i = 1: 4"; "prod2 i = 1: 4"; "prod i = 2: 8"; "prod2 i = 2: 2"]%string).
Proof.
  reflexivity.
Qed.

(** C2 fails as stated: the third line shows 8, never 6. *)
Lemma main_does_not_print_6 :
  ~ exists float_trunc : pyfloat -> Z,
      snd (main float_trunc []) =
      ["prod i = 1: 4"; "prod2 i = 1: 4"; "prod i = 2: 6"; "prod2 i = 2: 2"]%string.
Proof.
  intros [float_trunc Hout]. vm_compute in Hout. discriminate Hout.
Qed.

(** * Further properties of the script *)

(** ** The loop of [prod] on all inputs *)




Lemma prod_nonpositive (i h : Z) : i < 1 -> prod i h = PyInt 1.
Proof.
  intros Hi. unfold prod, prod_run.
  replace (Z.to_nat i) with 0%nat by lia. reflexivity.
Qed.



(** ** Exact products: splitting, squaring, size *)

Lemma pow2_pos (e : Z) : 0 <= e -> 0 < 2 ^ e.
Proof.
  intros He. apply Z.pow_pos_nonneg; lia.
Qed.

Lemma pow2_double (e : Z) : 0 <= e -> 2 ^ (e + 1) = 2 * 2 ^ e.
Proof.
  intros He. replace (e + 1) with (Z.succ e) by lia.
  apply Z.pow_succ_r. exact He.
Qed.

(** X5: for all integers i, j >= 0 with i + j <= h, the product splits
    after i factors: [prod (i+j) h = prod i h * prod j (h-i)]. *)
Theorem prod_split (i j h : Z) :
  0 <= i -> 0 <= j -> i + j <= h ->
  prod (i + j) h = mul (prod i h) (prod j (h - i)).
Proof.
  intros Hi Hj Hh.
  rewrite !prod_closed_int by lia. cbn [mul]. f_equal.
  unfold prod_closed.
  assert (H1 : 2 ^ (h - i) <= 2 ^ h) by (apply Z.pow_le_mono_r; lia).
  assert (H2 : 2 ^ (h - i - j) <= 2 ^ (h - i)) by (apply Z.pow_le_mono_r; lia).
  rewrite <- Z.pow_add_r by lia.
  f_equal. replace (h - (i + j)) with (h - i - j) by lia. lia.
Qed.

Lemma prod_split_witness :
  0 <= 1 /\ 0 <= 2 /\ 1 + 2 <= 4 /\
  prod (1 + 2) 4 = mul (prod 1 4) (prod 2 (4 - 1)).
Proof.
  repeat (split; [lia|]). apply (prod_split 1 2 4); lia.
Defined.

(** X6: for all integers i, h with 0 <= i <= h, one more level of
    height squares the product: [prod i (h+1) = prod i h * prod i h]. *)
Theorem prod_height_succ (i h : Z) :
  0 <= i <= h -> prod i (h + 1) = mul (prod i h) (prod i h).
Proof.
  intros [Hi Hih].
  rewrite !prod_closed_int by lia. cbn [mul]. f_equal.
  unfold prod_closed.
  assert (Hle : 2 ^ (h - i) <= 2 ^ h) by (apply Z.pow_le_mono_r; lia).
  rewrite <- Z.pow_add_r by lia.
  f_equal. replace (h + 1 - i) with (h - i + 1) by lia.
  rewrite !pow2_double by lia. lia.
Qed.

Lemma prod_height_succ_witness :
  0 <= 2 <= 3 /\ prod 2 (3 + 1) = mul (prod 2 3) (prod 2 3).
Proof.
  split; [lia | apply (prod_height_succ 2 3); lia].
Defined.

(** X7: for all integers i, h with 0 <= i <= h, [prod i h] is an
    integer n with 1 <= n < 2^(2^h) whose binary logarithm is
    2^h - 2^(h-i): it needs 2^h - 2^(h-i) + 1 bits. *)
Theorem prod_size (i h : Z) :
  0 <= i <= h ->
  exists n, prod i h = PyInt n /\
    1 <= n < 2 ^ (2 ^ h) /\
    Z.log2 n = 2 ^ h - 2 ^ (h - i).
Proof.
  intros [Hi Hih]. exists (prod_closed i h).
  split; [apply prod_closed_int; lia|].
  unfold prod_closed.
  assert (Hle : 2 ^ (h - i) <= 2 ^ h) by (apply Z.pow_le_mono_r; lia).
  assert (Hpos : 0 < 2 ^ (h - i)) by (apply pow2_pos; lia).
  split; [split|].
  - assert (0 < 2 ^ (2 ^ h - 2 ^ (h - i))) by (apply pow2_pos; lia). lia.
  - apply Z.pow_lt_mono_r; lia.
  - apply Z.log2_pow2. lia.
Qed.

Lemma prod_size_witness :
  0 <= 2 <= 3 /\
  exists n, prod 2 3 = PyInt n /\
    1 <= n < 2 ^ (2 ^ 3) /\
    Z.log2 n = 2 ^ 3 - 2 ^ (3 - 2).
Proof.
  split; [lia | apply (prod_size 2 3); lia].
Defined.

(** X8: for every integer i <= 2, stepping the argument of [prod2]
    down by one squares the result: [prod2 (i-1) = prod2 i * prod2 i]. *)
Theorem prod2_pred_squares (i : Z) :
  i <= 2 -> prod2 (i - 1) = mul (prod2 i) (prod2 i).
Proof.
  intros Hi. rewrite !prod2_int by lia. cbn [mul]. f_equal.
  assert (Hpos : 0 < 2 ^ (2 - i)) by (apply pow2_pos; lia).
  rewrite <- Z.pow_add_r by lia.
  f_equal. replace (2 - (i - 1)) with (2 - i + 1) by lia.
  rewrite pow2_double by lia. lia.
Qed.

Lemma prod2_pred_squares_witness :
  1 <= 2 /\ prod2 (1 - 1) = mul (prod2 1) (prod2 1).
Proof.
  split; [lia | apply (prod2_pred_squares 1); lia].
Defined.

(** ** [test] below its domain *)

(** X9: for every integer h < 1, [test h] prints nothing and returns
    [None]: what was printed before stays as it was. *)
Theorem test_prints_nothing (float_trunc : pyfloat -> Z) (h : Z) (out : stdout) :
  h < 1 -> test float_trunc h out = (Returned tt, out).
Proof.
  intros Hh. rewrite test_prints_lines. unfold demo_lines.
  replace (Z.to_nat h) with 0%nat by lia.
  cbn [seq map flat_map]. rewrite app_nil_r. reflexivity.
Qed.

Lemma test_prints_nothing_witness :
  0 < 1 /\ test (fun _ => 1) 0 ["earlier"%string] = (Returned tt, ["earlier"%string]).
Proof.
  split; [lia | apply (test_prints_nothing (fun _ => 1) 0); lia].
Defined.

(** ** [test] up to height 2 *)

Lemma demo_pair_exact (ft1 ft2 : pyfloat -> Z) (h i : Z) :
  i <= h -> i <= 2 -> demo_pair ft1 h i = demo_pair ft2 h i.
Proof.
  intros Hih Hi2. unfold demo_pair, demo_line.
  rewrite prod_int by exact Hih. rewrite prod2_int by exact Hi2.
  reflexivity.
Qed.

(** X10: for every integer h <= 2, every number [test h] prints is an
    exact [int]: the output does not depend on how the platform
    converts floats. *)
Theorem test_exact_up_to_2 (ft1 ft2 : pyfloat -> Z) (h : Z) (out : stdout) :
  h <= 2 -> test ft1 h out = test ft2 h out.
Proof.
  intros Hh. rewrite !test_prints_lines. do 2 f_equal.
  unfold demo_lines. rewrite !flat_map_concat_map. f_equal.
  apply map_ext_in. intros i Hin.
  apply in_map_iff in Hin. destruct Hin as [n [<- Hn]].
  apply in_seq in Hn.
  apply demo_pair_exact; lia.
Qed.

Lemma test_exact_up_to_2_witness :
  2 <= 2 /\ test (fun _ => 0) 2 [] = test (fun _ => 1) 2 [].
Proof.
  split; [lia | apply (test_exact_up_to_2 (fun _ => 0) (fun _ => 1) 2); lia].
Defined.

(** * The script with its conversion errors *)

(** ** Integers that convert to a double *)

Lemma double_limit_bounds :
  2 ^ 1023 < PyChecked.double_limit /\ PyChecked.double_limit < 2 ^ 1024.
Proof.
  split; vm_compute; reflexivity.
Qed.

Lemma fits_double_2 : PyChecked.fits_double 2 = true.
Proof.
  vm_compute. reflexivity.
Qed.

Lemma fits_double_1 : PyChecked.fits_double 1 = true.
Proof.
  vm_compute. reflexivity.
Qed.

(** A negative exponent converts when its distance to 0 is below the
    limit. *)
Lemma fits_double_neg (e : Z) :
  e < 0 -> PyChecked.fits_double e = (- e <? PyChecked.double_limit).
Proof.
  intros He. unfold PyChecked.fits_double.
  replace (Z.abs e) with (- e) by lia. reflexivity.
Qed.

(** A power of 2 converts up to 2^1023. *)
Lemma fits_double_pow2 (e : Z) :
  0 <= e -> PyChecked.fits_double (2 ^ e) = (e <=? 1023).
Proof.
  intros He. unfold PyChecked.fits_double.
  assert (Hpos : 0 < 2 ^ e) by (apply Z.pow_pos_nonneg; lia).
  replace (Z.abs (2 ^ e)) with (2 ^ e) by lia.
  destruct double_limit_bounds as [Hlow Hhigh].
  destruct (Z.leb_spec e 1023) as [Hle|Hgt].
  - apply Z.ltb_lt. apply Z.le_lt_trans with (2 ^ 1023); [|exact Hlow].
    apply Z.pow_le_mono_r; lia.
  - apply Z.ltb_ge. apply Z.le_trans with (2 ^ 1024); [apply Z.lt_le_incl; exact Hhigh|].
    apply Z.pow_le_mono_r; lia.
Qed.

(** ** One loop body with its errors *)

Lemma body_checked_int (h r k0 : Z) (n : nat) :
  k0 <= h ->
  prod_body_checked h (Frame (PyInt r) k0 n) =
  Returned (Frame (PyInt (r * factor h k0)) (k0 + 1) (S n)).
Proof.
  intros Hk. unfold prod_body_checked. cbn [k result iters].
  unfold PyChecked.pow at 1.
  destruct (Z.leb_spec 0 (h - k0)) as [_|Hneg]; [|lia]. cbn [obind].
  unfold PyChecked.pow.
  destruct (Z.leb_spec 0 (2 ^ (h - k0))) as [_|Hneg].
  - reflexivity.
  - pose proof (Z.pow_nonneg 2 (h - k0)). lia.
Qed.

(** The two power calls with a negative exponent [e]. *)
Lemma tower_checked_negative (e : Z) :
  e < 0 ->
  obind (PyChecked.pow (PyInt 2) (PyInt e)) (fun y => PyChecked.pow (PyInt 2) y) =
  if PyChecked.fits_double e
  then Returned (PyFloat (Fpow (FofInt 2) (Fpow (FofInt 2) (FofInt e))))
  else Raised OverflowError.
Proof.
  intros He. unfold PyChecked.pow at 1.
  destruct (Z.leb_spec 0 e) as [Hge|_]; [lia|].
  unfold PyChecked.float_pow, PyChecked.to_double.
  rewrite fits_double_2. cbn [obind].
  destruct (PyChecked.fits_double e); cbn [obind]; [|reflexivity].
  unfold PyChecked.pow, PyChecked.float_pow, PyChecked.to_double.
  rewrite fits_double_2. reflexivity.
Qed.

Lemma body_checked_past (h : Z) (st : frame) :
  h < k st ->
  prod_body_checked h st =
  if PyChecked.fits_double (h - k st)
  then obind (PyChecked.mul (result st)
                (PyFloat (Fpow (FofInt 2) (Fpow (FofInt 2) (FofInt (h - k st))))))
             (fun r => Returned (Frame r (k st + 1) (S (iters st))))
  else Raised OverflowError.
Proof.
  intros Hk. unfold prod_body_checked.
  assert (Htower := tower_checked_negative (h - k st) ltac:(lia)).
  destruct (PyChecked.pow (PyInt 2) (PyInt (h - k st))) as [y|e];
    cbn [obind] in Htower |- *.
  - rewrite Htower.
    destruct (PyChecked.fits_double (h - k st)); reflexivity.
  - destruct (PyChecked.fits_double (h - k st)); [discriminate|].
    injection Htower as ->. reflexivity.
Qed.

(** A body that returns has moved [k] and the counter by one. *)
Lemma body_checked_shape (h : Z) (st st' : frame) :
  prod_body_checked h st = Returned st' ->
  k st' = k st + 1 /\ iters st' = S (iters st).
Proof.
  unfold prod_body_checked. intros Hbody.
  destruct (PyChecked.pow (PyInt 2) (PyInt (h - k st))) as [y|e];
    cbn [obind] in Hbody; [|discriminate].
  destruct (PyChecked.pow (PyInt 2) y) as [f|e];
    cbn [obind] in Hbody; [|discriminate].
  destruct (PyChecked.mul (result st) f) as [r|e];
    cbn [obind] in Hbody; [|discriminate].
  injection Hbody as <-. split; reflexivity.
Qed.

(** ** What is returned is what the operations compute *)

Lemma pow_checked_returns (x y v : pyval) :
  PyChecked.pow x y = Returned v -> v = pow x y.
Proof.
  unfold PyChecked.pow, pow, PyChecked.float_pow, PyChecked.to_double.
  destruct x as [b|a], y as [e|c]; cbn [to_float].
  - destruct (0 <=? e); [intros [= <-]; reflexivity|].
    destruct (PyChecked.fits_double b); cbn [obind]; [|discriminate].
    destruct (PyChecked.fits_double e); cbn [obind]; [|discriminate].
    intros [= <-]. reflexivity.
  - destruct (PyChecked.fits_double b); cbn [obind]; [|discriminate].
    intros [= <-]. reflexivity.
  - destruct (PyChecked.fits_double e); cbn [obind]; [|discriminate].
    intros [= <-]. reflexivity.
  - cbn [obind]. intros [= <-]. reflexivity.
Qed.

Lemma mul_checked_returns (x y v : pyval) :
  PyChecked.mul x y = Returned v -> v = mul x y.
Proof.
  unfold PyChecked.mul, mul, PyChecked.float_mul, PyChecked.to_double.
  destruct x as [b|a], y as [e|c]; cbn [to_float].
  - intros [= <-]. reflexivity.
  - destruct (PyChecked.fits_double b); cbn [obind]; [|discriminate].
    intros [= <-]. reflexivity.
  - destruct (PyChecked.fits_double e); cbn [obind]; [|discriminate].
    intros [= <-]. reflexivity.
  - cbn [obind]. intros [= <-]. reflexivity.
Qed.

Lemma body_checked_returns (h : Z) (st st' : frame) :
  prod_body_checked h st = Returned st' -> st' = prod_body h st.
Proof.
  unfold prod_body_checked, prod_body. intros Hbody.
  destruct (PyChecked.pow (PyInt 2) (PyInt (h - k st))) as [y|e] eqn:Hy;
    cbn [obind] in Hbody; [|discriminate].
  destruct (PyChecked.pow (PyInt 2) y) as [f|e] eqn:Hf;
    cbn [obind] in Hbody; [|discriminate].
  destruct (PyChecked.mul (result st) f) as [r|e] eqn:Hr;
    cbn [obind] in Hbody; [|discriminate].
  apply pow_checked_returns in Hy. apply pow_checked_returns in Hf.
  apply mul_checked_returns in Hr. subst. injection Hbody as <-. reflexivity.
Qed.

Lemma loop_checked_returns (fuel : nat) :
  forall i h st st',
  prod_loop_checked fuel i h st = Returned st' -> st' = prod_loop fuel i h st.
Proof.
  induction fuel as [|fuel IH]; intros i h st st' Hloop;
    cbn [prod_loop_checked prod_loop] in *.
  - injection Hloop as <-. reflexivity.
  - destruct (k st <=? i).
    + destruct (prod_body_checked h st) as [st1|e] eqn:Hbody; [|discriminate].
      apply body_checked_returns in Hbody. subst st1. apply IH. exact Hloop.
    + injection Hloop as <-. reflexivity.
Qed.

Lemma prod_checked_returns (i h : Z) (v : pyval) :
  prod_checked i h = Returned v -> v = prod i h.
Proof.
  unfold prod_checked, prod_run_checked, prod, prod_run. intros Hrun.
  destruct (prod_loop_checked (Z.to_nat i) i h prod_init) as [st|e] eqn:Hloop;
    cbn [obind] in Hrun; [|discriminate].
  apply loop_checked_returns in Hloop. injection Hrun as <-. subst st. reflexivity.
Qed.

(** The only error of the loop is [OverflowError]. *)
Lemma body_checked_raises (h : Z) (st : frame) (e : exn) :
  prod_body_checked h st = Raised e -> e = OverflowError.
Proof.
  unfold prod_body_checked, PyChecked.pow, PyChecked.mul,
    PyChecked.float_pow, PyChecked.float_mul, PyChecked.to_double.
  repeat match goal with
         | |- context [match ?x with _ => _ end] => destruct x; cbn [obind]
         end;
    intros Heq; try discriminate; injection Heq as <-; reflexivity.
Qed.

(** ** The loop with its errors *)

Lemma loop_checked_shape (fuel : nat) :
  forall i h st st', (Z.to_nat (i + 1 - k st) <= fuel)%nat ->
  prod_loop_checked fuel i h st = Returned st' ->
  k st' = Z.max (k st) (i + 1) /\
  iters st' = (iters st + Z.to_nat (i + 1 - k st))%nat.
Proof.
  induction fuel as [|fuel IH]; intros i h st st' Hfuel Hloop;
    cbn [prod_loop_checked] in Hloop.
  - injection Hloop as <-. split; lia.
  - destruct (Z.leb_spec (k st) i) as [Hle|Hgt].
    + destruct (prod_body_checked h st) as [st1|e] eqn:Hbody; [|discriminate].
      apply body_checked_shape in Hbody. destruct Hbody as [Hk1 Hn1].
      apply IH in Hloop; [|lia]. destruct Hloop as [Hk Hn].
      rewrite Hk, Hn, Hk1, Hn1. split; lia.
    + injection Hloop as <-. split; lia.
Qed.

Lemma loop_checked_raises (fuel : nat) :
  forall i h st e,
  prod_loop_checked fuel i h st = Raised e -> e = OverflowError.
Proof.
  induction fuel as [|fuel IH]; intros i h st e Hloop;
    cbn [prod_loop_checked] in Hloop; [discriminate|].
  destruct (k st <=? i); [|discriminate].
  destruct (prod_body_checked h st) as [st1|e1] eqn:Hbody.
  - apply (IH i h st1 e Hloop).
  - injection Hloop as <-. apply (body_checked_raises h st e1 Hbody).
Qed.

(** [m] iterations on exact integers, all with k <= h. *)
Lemma loop_checked_int (m : nat) :
  forall fuel i h r k0 n,
  (m = 0%nat \/ (k0 + Z.of_nat m <= h + 1 /\ k0 + Z.of_nat m <= i + 1)) ->
  prod_loop_checked (m + fuel) i h (Frame (PyInt r) k0 n) =
  prod_loop_checked fuel i h
    (Frame (PyInt (r * big_prod k0 (k0 + Z.of_nat m - 1) h))
           (k0 + Z.of_nat m) (n + m)).
Proof.
  induction m as [|m IH]; intros fuel i h r k0 n Hm.
  - rewrite big_prod_empty by lia. cbn [Nat.add].
    do 2 f_equal; [f_equal|..]; lia.
  - destruct Hm as [Hm|[Hh Hi]]; [discriminate|].
    cbn [Nat.add prod_loop_checked k].
    destruct (Z.leb_spec k0 i) as [_|Hgt]; [|lia].
    rewrite body_checked_int by lia.
    rewrite IH by (right; lia).
    rewrite (big_prod_first k0 (k0 + Z.of_nat (S m) - 1) h) by lia.
    replace (k0 + 1 + Z.of_nat m - 1) with (k0 + Z.of_nat (S m) - 1) by lia.
    do 2 f_equal; [f_equal|..]; lia.
Qed.

(** Past k = h on a float: the loop goes on while the exponents
    convert. *)
Lemma loop_checked_float (fuel : nat) :
  forall i h x k0 n, h < k0 -> (Z.to_nat (i + 1 - k0) <= fuel)%nat ->
  (i - h < PyChecked.double_limit ->
     exists x',
       prod_loop_checked fuel i h (Frame (PyFloat x) k0 n) =
       Returned (Frame (PyFloat x') (Z.max k0 (i + 1))
                       (n + Z.to_nat (i + 1 - k0)))) /\
  (k0 <= i -> PyChecked.double_limit <= i - h ->
     prod_loop_checked fuel i h (Frame (PyFloat x) k0 n) = Raised OverflowError).
Proof.
  induction fuel as [|fuel IH]; intros i h x k0 n Hk Hfuel.
  - split; [|lia]. intros _. exists x. cbn [prod_loop_checked].
    do 2 f_equal; lia.
  - cbn [prod_loop_checked k].
    destruct (Z.leb_spec k0 i) as [Hle|Hgt].
    + rewrite body_checked_past by (cbn [k]; lia). cbn [k result iters].
      rewrite fits_double_neg by lia.
      destruct (Z.ltb_spec (- (h - k0)) PyChecked.double_limit) as [Hfit|Hbig].
      * cbn [PyChecked.mul PyChecked.float_mul PyChecked.to_double obind].
        destruct (IH i h
                    (Fmul x (Fpow (FofInt 2) (Fpow (FofInt 2) (FofInt (h - k0)))))
                    (k0 + 1) (S n)) as [Hret Hraise]; [lia|lia|].
        split.
        -- intros Hlim. destruct (Hret Hlim) as [x' Hx']. exists x'.
           rewrite Hx'. do 2 f_equal; lia.
        -- intros _ Hlim. apply Hraise; lia.
      * split; [lia|reflexivity].
    + split; [|lia]. intros _. exists x. do 2 f_equal; lia.
Qed.

(** Raising the bound by one runs the body once more at the end, if
    the loop gets there. *)
Lemma loop_checked_step (fuel : nat) :
  forall i h st, k st <= i + 1 -> (Z.to_nat (i + 1 - k st) <= fuel)%nat ->
  prod_loop_checked (S fuel) (i + 1) h st =
  obind (prod_loop_checked fuel i h st) (prod_body_checked h).
Proof.
  induction fuel as [|fuel IH]; intros i h st Hk Hfuel.
  - cbn [prod_loop_checked obind].
    destruct (Z.leb_spec (k st) (i + 1)) as [_|Hgt]; [|lia].
    destruct (prod_body_checked h st); reflexivity.
  - cbn [prod_loop_checked].
    destruct (Z.leb_spec (k st) (i + 1)) as [_|Hgt]; [|lia].
    destruct (Z.leb_spec (k st) i) as [Hle|Hlast].
    + destruct (prod_body_checked h st) as [st1|e] eqn:Hbody; [|reflexivity].
      apply body_checked_shape in Hbody. destruct Hbody as [Hk1 _].
      rewrite <- IH by lia. reflexivity.
    + cbn [obind].
      destruct (prod_body_checked h st) as [st1|e] eqn:Hbody; [|reflexivity].
      apply body_checked_shape in Hbody. destruct Hbody as [Hk1 _].
      destruct (Z.leb_spec (k st1) (i + 1)) as [Hle|_]; [lia|reflexivity].
Qed.

(** The exact product of all the factors with k <= h converts to a
    double up to h = 10. *)
Lemma exact_part_fits (h : Z) :
  PyChecked.fits_double (big_prod 1 (Z.max 0 h) h) = (h <=? 10).
Proof.
  destruct (Z.ltb_spec h 0) as [Hneg|Hpos].
  - rewrite big_prod_empty by lia. rewrite fits_double_1.
    symmetry. apply Z.leb_le. lia.
  - replace (Z.max 0 h) with h by lia.
    rewrite (big_prod_closed (Z.to_nat h) 1 h h) by lia.
    replace (h - 1 + 1) with h by lia. rewrite Z.sub_diag.
    assert (H1 : 1 <= 2 ^ h) by (pose proof (Z.pow_pos_nonneg 2 h); lia).
    change (2 ^ 0) with 1.
    rewrite fits_double_pow2 by lia.
    destruct (Z.leb_spec h 10) as [Hle|Hgt].
    + apply Z.leb_le.
      assert (2 ^ h <= 2 ^ 10) by (apply Z.pow_le_mono_r; lia).
      change (2 ^ 10) with 1024 in *. lia.
    + apply Z.leb_gt.
      assert (2 ^ 11 <= 2 ^ h) by (apply Z.pow_le_mono_r; lia).
      change (2 ^ 11) with 2048 in *. lia.
Qed.

Lemma prod_run_checked_int (i h : Z) :
  i < 1 \/ i <= h ->
  prod_run_checked i h =
  Returned (Frame (PyInt (big_prod 1 i h)) (Z.max 0 i + 1) (Z.to_nat i)).
Proof.
  intros Hdom. unfold prod_run_checked, prod_init.
  replace (Z.to_nat i) with (Z.to_nat i + 0)%nat at 1 by lia.
  rewrite loop_checked_int by lia.
  cbn [prod_loop_checked].
  assert (Hprod : big_prod 1 (1 + Z.of_nat (Z.to_nat i) - 1) h = big_prod 1 i h).
  { destruct (Z.ltb_spec i 1) as [Hlow|Hpos].
    - rewrite !big_prod_empty by lia. reflexivity.
    - f_equal. lia. }
  rewrite Hprod. do 2 f_equal; [f_equal|..]; lia.
Qed.

(** Past the exact domain: the state after the exact part, then the
    first float step. *)
Lemma prod_run_checked_past (i h : Z) :
  1 <= i -> h < i ->
  (h <= 10 -> i - h < PyChecked.double_limit ->
     exists x,
       prod_run_checked i h =
       Returned (Frame (PyFloat x) (i + 1) (Z.to_nat i))) /\
  (11 <= h \/ PyChecked.double_limit <= i - h ->
     prod_run_checked i h = Raised OverflowError).
Proof.
  intros Hi Hh. unfold prod_run_checked, prod_init.
  set (j := Z.max 0 h).
  assert (Hexact :
    prod_loop_checked (Z.to_nat i) i h (Frame (PyInt 1) 1 0) =
    prod_loop_checked (S (Z.to_nat (i - j - 1))) i h
      (Frame (PyInt (1 * big_prod 1 j h)) (j + 1) (Z.to_nat j))).
  { replace (Z.to_nat i) with (Z.to_nat j + S (Z.to_nat (i - j - 1)))%nat
      by lia.
    rewrite loop_checked_int by lia.
    replace (1 + Z.of_nat (Z.to_nat j) - 1) with j by lia.
    replace (1 + Z.of_nat (Z.to_nat j)) with (j + 1) by lia.
    reflexivity. }
  rewrite Hexact. clear Hexact.
  cbn [prod_loop_checked k].
  destruct (Z.leb_spec (j + 1) i) as [_|Hgt]; [|lia].
  rewrite body_checked_past by (cbn [k]; lia). cbn [k result iters].
  rewrite fits_double_neg by lia.
  rewrite Z.mul_1_l.
  cbn [PyChecked.mul]. unfold PyChecked.float_mul, PyChecked.to_double.
  assert (Hfits := exact_part_fits h). fold j in Hfits. rewrite Hfits.
  clear Hfits.
  destruct (Z.ltb_spec (- (h - (j + 1))) PyChecked.double_limit) as [Hfit|Hbig].
  - destruct (Z.leb_spec h 10) as [Hle|Hgt]; cbn [obind].
    + match goal with
      | |- context [prod_loop_checked ?f i h (Frame (PyFloat ?x) ?k0 ?n)] =>
          destruct (loop_checked_float f i h x k0 n) as [Hret Hraise];
            [lia|lia|]
      end.
      split.
      * intros _ Hlim. destruct (Hret Hlim) as [x' Hx']. exists x'.
        rewrite Hx'. do 2 f_equal; lia.
      * intros [Hbig|Hbig]; [lia|]. apply Hraise; lia.
    + split; [lia|reflexivity].
  - split; [lia|reflexivity].
Qed.

(** ** [prod2] and [prod] with their errors *)

(** C8, as the script behaves: for every integer i <= 2, [prod2 i]
    returns the exact integer 2^(2^(2-i)), one power of 2.  For i > 2
    the exponent 2 - i is negative and the number 2^(2^(2-i)), whose
    2^(i-2)-th power is 2, is no integer; the call never returns an
    [int]: it returns the float of [pow(2.0, pow(2.0, 2 - i))] when
    i - 2 < 2^1024 - 2^970, and raises [OverflowError] beyond, where
    2 - i does not convert to a double. *)
Theorem prod2_checked_cases (i : Z) :
  (i <= 2 ->
     prod2_checked i = Returned (PyInt (2 ^ (2 ^ (2 - i)))) /\
     prod2_checked i = PyChecked.pow (PyInt 2) (PyInt (2 ^ (2 - i)))) /\
  (2 < i ->
     2 - i < 0 /\
     (forall z : Z, z ^ (2 ^ (i - 2)) <> 2) /\
     (forall n : Z, prod2_checked i <> Returned (PyInt n)) /\
     (i - 2 < PyChecked.double_limit ->
        prod2_checked i =
        Returned (PyFloat (Fpow (FofInt 2) (Fpow (FofInt 2) (FofInt (2 - i)))))) /\
     (PyChecked.double_limit <= i - 2 ->
        prod2_checked i = Raised OverflowError)).
Proof.
  split; intros Hi.
  - assert (Hinner :
      prod2_checked i = PyChecked.pow (PyInt 2) (PyInt (2 ^ (2 - i)))).
    { unfold prod2_checked. unfold PyChecked.pow at 1.
      destruct (Z.leb_spec 0 (2 - i)) as [_|Hneg]; [reflexivity|lia]. }
    split; [|exact Hinner]. rewrite Hinner. unfold PyChecked.pow.
    destruct (Z.leb_spec 0 (2 ^ (2 - i))) as [_|Hneg]; [reflexivity|].
    pose proof (Z.pow_nonneg 2 (2 - i)). lia.
  - assert (Hcases := tower_checked_negative (2 - i) ltac:(lia)).
    fold (prod2_checked i) in Hcases.
    rewrite fits_double_neg in Hcases by lia.
    split; [lia|]. split; [intros z; apply no_integer_root_of_2; lia|].
    destruct (Z.ltb_spec (- (2 - i)) PyChecked.double_limit) as [Hfit|Hbig];
      rewrite Hcases.
    + split; [discriminate|]. split; [reflexivity|lia].
    + split; [discriminate|]. split; [lia|reflexivity].
Qed.

Lemma prod2_checked_cases_witness :
  (0 <= 2 /\ prod2_checked 0 = Returned (PyInt (2 ^ (2 ^ (2 - 0))))) /\
  (2 < 3 /\
   prod2_checked 3 =
   Returned (PyFloat (Fpow (FofInt 2) (Fpow (FofInt 2) (FofInt (2 - 3)))))).
Proof.
  split.
  - split; [lia | apply (proj1 (prod2_checked_cases 0)); lia].
  - split; [lia|].
    apply (proj2 (prod2_checked_cases 3)); [lia | vm_compute; reflexivity].
Defined.

(** C8 fails as stated: at i = 2^1024 + 2, which is above 2, the call
    has no result at all, fractional or not: it raises
    [OverflowError]. *)
Lemma prod2_raises_beyond_doubles :
  2 < 2 ^ 1024 + 2 /\ prod2_checked (2 ^ 1024 + 2) = Raised OverflowError.
Proof.
  split; vm_compute; reflexivity.
Qed.

(** X1: whenever [prod i h] returns, its loop has run exactly
    max(i, 0) bodies and ended with k = max(i, 0) + 1; it returns
    whenever i < 1 or i <= h; the only error that leaves the loop
    early is [OverflowError]. *)
Theorem prod_checked_iterations (i h : Z) :
  (forall st, prod_run_checked i h = Returned st ->
     iters st = Z.to_nat i /\ k st = Z.max 0 i + 1) /\
  (i < 1 \/ i <= h -> exists st, prod_run_checked i h = Returned st) /\
  (forall e, prod_run_checked i h = Raised e -> e = OverflowError).
Proof.
  split; [|split].
  - intros st Hrun. unfold prod_run_checked in Hrun.
    apply loop_checked_shape in Hrun; [|cbn [prod_init k]; lia].
    cbn [prod_init k iters] in Hrun. destruct Hrun as [Hk Hn].
    rewrite Hk, Hn. split; lia.
  - intros Hdom. eexists. apply prod_run_checked_int. exact Hdom.
  - intros e Hrun. apply (loop_checked_raises _ _ _ _ _ Hrun).
Qed.

Lemma prod_checked_iterations_witness :
  (2 < 1 \/ 2 <= 3) /\ exists st, prod_run_checked 2 3 = Returned st.
Proof.
  split; [right; lia | apply (prod_checked_iterations 2 3); right; lia].
Defined.

(** X2: for every integer i >= 0 and every integer h, [prod (i+1) h]
    does what [prod i h] does and then one more body: it raises if
    [prod i h] raises, and otherwise multiplies the result by
    [pow(2, pow(2, h - (i+1)))], which may raise in turn. *)
Theorem prod_checked_recurrence (i h : Z) :
  0 <= i ->
  prod_checked (i + 1) h =
  obind (prod_checked i h) (fun r =>
  obind (PyChecked.pow (PyInt 2) (PyInt (h - (i + 1)))) (fun e =>
  obind (PyChecked.pow (PyInt 2) e) (fun f =>
  PyChecked.mul r f))).
Proof.
  intros Hi. unfold prod_checked, prod_run_checked.
  replace (Z.to_nat (i + 1)) with (S (Z.to_nat i)) by lia.
  rewrite loop_checked_step by (cbn [prod_init k]; lia).
  destruct (prod_loop_checked (Z.to_nat i) i h prod_init) as [st|e] eqn:Hrun;
    cbn [obind]; [|reflexivity].
  apply loop_checked_shape in Hrun; [|cbn [prod_init k]; lia].
  destruct Hrun as [Hk _]. cbn [prod_init k] in Hk.
  unfold prod_body_checked. rewrite Hk.
  replace (Z.max 1 (i + 1)) with (i + 1) by lia.
  destruct (PyChecked.pow (PyInt 2) (PyInt (h - (i + 1)))) as [y|e];
    cbn [obind]; [|reflexivity].
  destruct (PyChecked.pow (PyInt 2) y) as [f|e]; cbn [obind]; [|reflexivity].
  destruct (PyChecked.mul (result st) f); reflexivity.
Qed.

Lemma prod_checked_recurrence_witness :
  0 <= 11 /\
  prod_checked (11 + 1) 11 =
  obind (prod_checked 11 11) (fun r =>
  obind (PyChecked.pow (PyInt 2) (PyInt (11 - (11 + 1)))) (fun e =>
  obind (PyChecked.pow (PyInt 2) e) (fun f =>
  PyChecked.mul r f))).
Proof.
  split; [lia | apply (prod_checked_recurrence 11 11); lia].
Defined.

(** X3: [prod i h] returns the exact product when i < 1 or i <= h.
    For i >= 1 and i > h it returns a float when h <= 10 and
    i - h < 2^1024 - 2^970, and raises [OverflowError] otherwise: for
    h >= 11 the exact part 2^(2^h - 1) does not convert to a double,
    and from i - h = 2^1024 - 2^970 on the exponent h - i does not. *)
Theorem prod_checked_cases (i h : Z) :
  (i < 1 \/ i <= h -> prod_checked i h = Returned (PyInt (prod_formula i h))) /\
  (1 <= i -> h < i -> h <= 10 -> i - h < PyChecked.double_limit ->
     exists x, prod_checked i h = Returned (PyFloat x)) /\
  (1 <= i -> h < i -> 11 <= h \/ PyChecked.double_limit <= i - h ->
     prod_checked i h = Raised OverflowError).
Proof.
  unfold prod_checked. split; [|split].
  - intros Hdom. rewrite prod_run_checked_int by exact Hdom. reflexivity.
  - intros Hi Hh Hh10 Hlim.
    destruct (prod_run_checked_past i h Hi Hh) as [Hret _].
    destruct (Hret Hh10 Hlim) as [x Hx]. exists x. rewrite Hx. reflexivity.
  - intros Hi Hh Hbig.
    destruct (prod_run_checked_past i h Hi Hh) as [_ Hraise].
    rewrite (Hraise Hbig). reflexivity.
Qed.

Lemma prod_checked_cases_witness :
  ((2 < 1 \/ 2 <= 3) /\ prod_checked 2 3 = Returned (PyInt (prod_formula 2 3))) /\
  ((1 <= 3 /\ 2 < 3 /\ 2 <= 10) /\
   exists x, prod_checked 3 2 = Returned (PyFloat x)) /\
  ((1 <= 12 /\ 11 < 12 /\ 11 <= 11) /\
   prod_checked 12 11 = Raised OverflowError).
Proof.
  split; [|split].
  - split; [right; lia | apply (prod_checked_cases 2 3); right; lia].
  - split; [lia|].
    apply (proj1 (proj2 (prod_checked_cases 3 2)));
      [lia | lia | lia | vm_compute; reflexivity].
  - split; [lia|].
    apply (proj2 (proj2 (prod_checked_cases 12 11))); [lia | lia | left; lia].
Defined.
